(** * Neon drone dashboard: telemetry sampler and display mapping

    A shallow embedding of [drone_neon_dashboard.py].  The script draws one
    telemetry reading from Python's [random] module, rounds the float fields
    with the builtin [round], and lays the reading out on a Streamlit page
    (alert banner, 3D view, map, gauges, metrics, trend chart).

    Python floats are IEEE-754 binary64 numbers.  They are modelled as the
    rationals they denote; every arithmetic operation is the exact operation
    followed by round-to-nearest-even onto the binary64 grid. *)

From Stdlib Require Import ZArith QArith Qround Qpower Qabs.
From Stdlib Require Import SpecFloat.
From Stdlib Require Import List String Ascii Bool Lia Lqa.
Import ListNotations.

Local Open Scope Z_scope.
Local Open Scope Q_scope.

(** ** Binary64 arithmetic *)

Module Binary64.

(** Significand width and the exponent of the smallest subnormal. *)
Definition prec : Z := 53.
Definition emin : Z := -1074.

Definition pow2 (e : Z) : Q := (2 # 1) ^ e.

(** [ilog2 x] is floor(log2 x) for a positive rational. *)
Definition ilog2 (x : Q) : Z :=
  let t := (Z.log2 (Qnum x) - Z.log2 (Zpos (Qden x)))%Z in
  if Qle_bool (pow2 t) x then t else (t - 1)%Z.

(** Exponent of the unit in the last place of the binade of [x]. *)
Definition cexp (x : Q) : Z := Z.max (ilog2 x - (prec - 1)) emin.

(** Round to the nearest integer, ties to the even one. *)
Definition rhe (x : Q) : Z :=
  let f := Qfloor x in
  match Qcompare (x - inject_Z f) (1 # 2) with
  | Lt => f
  | Gt => (f + 1)%Z
  | Eq => if Z.even f then f else (f + 1)%Z
  end.

Definition round_pos (x : Q) : Q :=
  let e := cexp x in
  Qred (inject_Z (rhe (x / pow2 e)) * pow2 e).

(** Round-to-nearest-even onto binary64 (no overflow: the program's values
    stay far below 2^1024). *)
Definition fl (x : Q) : Q :=
  match Qcompare x 0 with
  | Eq => 0
  | Gt => round_pos x
  | Lt => - round_pos (- x)
  end.

Definition fadd (x y : Q) : Q := fl (x + y).
Definition fsub (x y : Q) : Q := fl (x - y).
Definition fmul (x y : Q) : Q := fl (x * y).

Definition Qltb (x y : Q) : bool := negb (Qle_bool y x).

End Binary64.

Import Binary64.

(** ** The Python library functions the script calls *)

(** The script's inputs: the stream of outcomes of the [random] module's
    generator, numpy's stream of standard normal draws (each its own
    generator, each with a cursor that every draw advances), and the wall
    clock in nanoseconds.  An outcome of [py_entropy] is reduced into the range
    of the call that consumes it, so every stream is a possible run and
    every possible run is some stream. *)
Record world := {
  py_entropy : nat -> Z;
  py_pos : nat;
  np_entropy : nat -> Q;
  np_pos : nat;
  clock : Z
}.

Module Py.

(** A decimal float literal denotes the nearest binary64 number. *)
Definition lit (q : Q) : Q := fl q.

Definition pow10 (n : nat) : Q := inject_Z (10 ^ Z.of_nat n).

(** [round(x, ndigits)] on a float: the exact value of [x] is rounded
    half-to-even to [ndigits] decimals, and that decimal is read back as
    the nearest binary64 number. *)
Definition round (x : Q) (ndigits : nat) : Q :=
  fl (inject_Z (rhe (x * pow10 ndigits)) / pow10 ndigits).

Definition abs (z : Z) : Z := Z.abs z.

(** State passing over the world. *)
Definition Rand (A : Type) : Type := world -> A * world.

Definition ret {A} (a : A) : Rand A := fun w => (a, w).

Definition bind {A B} (m : Rand A) (k : A -> Rand B) : Rand B :=
  fun w => let (a, w') := m w in k a w'.

(** [_randbelow(n)]: an integer in [0, n). *)
Definition randbelow (n : Z) : Rand Z :=
  fun '(Build_world e p ne np c) =>
    ((e p mod n)%Z, Build_world e (S p) ne np c).

(** [random.random()]: a multiple of 2^-53 in [0, 1). *)
Definition random : Rand Q :=
  bind (randbelow (2 ^ 53)) (fun n => ret (n # 2 ^ 53)).

(** [random.uniform(a, b)] is [a + (b - a) * random()]. *)
Definition uniform (a b : Q) : Rand Q :=
  bind random (fun u => ret (fadd a (fmul (fsub b a) u))).

(** [random.randint(a, b)] is [a + _randbelow(b - a + 1)]. *)
Definition randint (a b : Z) : Rand Z :=
  bind (randbelow (b - a + 1)) (fun j => ret (a + j)%Z).

(** [random.choice(seq)] is [seq[_randbelow(len(seq))]]. *)
Definition choice (seq : list string) : Rand string :=
  bind (randbelow (Z.of_nat (List.length seq)))
       (fun i => ret (nth (Z.to_nat i) seq EmptyString)).

(** One standard normal draw of numpy's generator; any finite binary64
    number can come out. *)
Definition standard_normal : Rand Q :=
  fun '(Build_world e p ne np c) =>
    (fl (ne np), Build_world e p ne (S np) c).

(** [np.random.normal(loc, scale, size)]: [size] draws, each
    [loc + scale * z] for a fresh standard normal [z]. *)
Fixpoint normal (loc scale : Q) (size : nat) : Rand (list Q) :=
  match size with
  | O => ret []
  | S n =>
      bind standard_normal (fun z =>
      bind (normal loc scale n) (fun rest =>
      ret (fadd loc (fmul scale z) :: rest)))
  end.

(** [pd.Timestamp.now()], in nanoseconds. *)
Definition timestamp_now : Rand Z := fun w => (clock w, w).

Definition second : Z := 1000000000.

(** [pd.date_range(end=e, periods=n, freq="s")]: [n] stamps one second
    apart, the first at [e - (n - 1) s]. *)
Definition date_range_end (e : Z) (periods : nat) : list Z :=
  let b := (e - (Z.of_nat periods - 1) * second)%Z in
  map (fun i => (b + Z.of_nat i * second)%Z) (seq 0 periods).

End Py.

(** ** The page *)

(** Values handed to a widget, and f-strings with their interpolated
    values kept apart from the literal text. *)
Inductive pyval :=
| PInt (z : Z)
| PFloat (x : Q)
| PStr (s : string).

Inductive piece :=
| Text (s : string)
| Interp (v : pyval).

Inductive content :=
| Val (v : pyval)
| FString (f : list piece).

Inductive style :=
| Marker (size : Z) (color : string)
| Line (color : string) (width : option Z).

Inductive trace :=
| Scatter3d (x y z : list Z) (mode : string) (st : style) (name : option string)
| Scatter (x : list Z) (y : list Q) (name : string) (st : style)
| Indicator (mode : string) (value : pyval) (title : string)
            (axis_range : option Z * option Z) (gauge : list (string * string)).

Record figure := {
  traces : list trace;
  layout : list (string * string)
}.

(** [st.columns] takes a number of equal columns or a list of widths. *)
Inductive colspec :=
| Count (n : Z)
| Widths (ws : list Z).

Inductive widget :=
| set_page_config (page_title layout : string)
| markdown (body : content) (unsafe_allow_html : bool)
| error (body icon : string)
| columns (spec : colspec)
| slider (label : string) (min_value max_value value : Q)
| toggle (label : string) (value : bool)
| button (label : string)
| plotly_chart (fig : figure) (use_container_width : bool)
| map_ (lat lon : list Q)
| metric (label : string) (value : content).

(** A widget together with the container it is written to. *)
Definition placed : Type := string * widget.

(** The script: world passing plus the widgets written so far. *)
Definition Script (A : Type) : Type := world -> A * world * list placed.

Definition ret {A} (a : A) : Script A := fun w => (a, w, []).

Definition bind {A B} (m : Script A) (k : A -> Script B) : Script B :=
  fun w =>
    let '(a, w1, out1) := m w in
    let '(b, w2, out2) := k a w1 in
    (b, w2, out1 ++ out2).

Definition lift {A} (m : Py.Rand A) : Script A :=
  fun w => let (a, w') := m w in (a, w', []).

Definition st (container : string) (wd : widget) : Script unit :=
  fun w => (tt, w, [(container, wd)]).

Definition when (c : bool) (m : Script unit) : Script unit :=
  if c then m else ret tt.

Declare Scope script_scope.
Delimit Scope script_scope with script.
Notation "x <- m ;; k" := (bind m (fun x => k))
  (at level 61, m at next level, right associativity) : script_scope.
Notation "m ;; k" := (bind m (fun _ => k))
  (at level 61, right associativity) : script_scope.
Local Open Scope script_scope.
Local Open Scope string_scope.

Definition utf8 (bytes : list nat) : string :=
  string_of_list_ascii (List.map ascii_of_nat bytes).

Definition warning_sign : string := utf8 [226; 154; 160]%nat.
Definition degree_sign : string := utf8 [194; 176]%nat.

Definition neon_css : string := "
    <style>
    body {
        background-color: #000814;
        color: #00f7ff;
    }
    .stApp {
        background-color: #000814;
    }
    .stMetric, .stButton>button, .css-18e3th9 {
        background-color: #001d3d;
        color: #00f7ff;
        border-radius: 10px;
        border: 1px solid #00f7ff;
        box-shadow: 0 0 15px #00f7ff;
    }
    .stButton>button {
        padding: 0.5rem 1rem;
    }
    </style>
".

(** ** Telemetry generator *)

Record Telemetry := {
  mode : string;
  battery : Q;
  signal : Z;
  altitude : Q;
  temperature : Q;
  pressure : Q;
  roll : Q;
  pitch : Q;
  yaw : Q;
  lat : Q;
  lon : Q;
  speed : Q
}.

(** [round(random.uniform(a, b), ndigits)] *)
Definition round_uniform (a b : Q) (ndigits : nat) : Script Q :=
  x <- lift (Py.uniform a b) ;; ret (Py.round x ndigits).

Definition generate_telemetry : Script Telemetry :=
  v_mode <- lift (Py.choice ["Auto"; "Manual"; "RTL"; "Loiter"]) ;;
  v_battery <- round_uniform (Py.lit (85 # 10)) (Py.lit (126 # 10)) 2 ;;
  v_signal <- lift (Py.randint (-90) (-50)) ;;
  v_altitude <- round_uniform 100 250 2 ;;
  v_temperature <- round_uniform 18 30 2 ;;
  v_pressure <- round_uniform 960 1025 2 ;;
  v_roll <- round_uniform (-10) 10 2 ;;
  v_pitch <- round_uniform (-30) 30 2 ;;
  v_yaw <- round_uniform 0 360 2 ;;
  v_lat <- round_uniform (Py.lit (2913 # 100)) (Py.lit (2914 # 100)) 6 ;;
  v_lon <- round_uniform (Py.lit (7722 # 100)) (Py.lit (7723 # 100)) 6 ;;
  v_speed <- round_uniform 5 25 2 ;;
  ret {| mode := v_mode; battery := v_battery; signal := v_signal;
         altitude := v_altitude; temperature := v_temperature;
         pressure := v_pressure; roll := v_roll; pitch := v_pitch;
         yaw := v_yaw; lat := v_lat; lon := v_lon; speed := v_speed |}.

(** ** Alert *)

Definition battery_alert : widget := error "Battery Critical!" warning_sign.

Definition alert (telemetry : Telemetry) : Script unit :=
  when (Qltb (battery telemetry) (Py.lit 9)) (st "main" battery_alert).

(** ** Controls *)

Definition controls : Script unit :=
  st "col1" (markdown (Val (PStr "### Controls")) false) ;;
  st "col1" (slider "Simulation Speed" (Py.lit (5 # 10)) (Py.lit 3) (Py.lit 1)) ;;
  st "col1" (toggle "IMU Sensor" true) ;;
  st "col1" (toggle "GPS Sensor" true) ;;
  st "col1" (toggle "Environmental Sensor" false) ;;
  st "col1" (button "Pause").

(** ** 3D drone view *)

Definition add_trace (fig : figure) (t : trace) : figure :=
  {| traces := (traces fig ++ [t])%list; layout := layout fig |}.

Definition update_layout (fig : figure) (l : list (string * string)) : figure :=
  {| traces := traces fig; layout := (layout fig ++ l)%list |}.

Definition Figure (data : list trace) : figure :=
  {| traces := data; layout := [] |}.

Definition body : trace :=
  Scatter3d [0%Z] [0%Z] [0%Z] "markers" (Marker 10 "cyan") (Some "Body").

(** Arms (X shape): each arm is a segment from the origin. *)
Definition arms : list (list Z * list Z * list Z) :=
  [ ([0; 1], [0; 1], [0; 0]);
    ([0; -1], [0; 1], [0; 0]);
    ([0; -1], [0; -1], [0; 0]);
    ([0; 1], [0; -1], [0; 0]) ]%Z.

Definition arm_trace (arm : list Z * list Z * list Z) : trace :=
  let '(x, y, z) := arm in Scatter3d x y z "lines" (Line "aqua" (Some 5%Z)) None.

Definition drone_figure : figure :=
  let fig := Figure [] in
  let fig := add_trace fig body in
  let fig := fold_left (fun f arm => add_trace f (arm_trace arm)) arms fig in
  update_layout fig
    [("scene.xaxis.visible", "False"); ("scene.yaxis.visible", "False");
     ("scene.zaxis.visible", "False"); ("margin", "l=0,r=0,b=0,t=0");
     ("paper_bgcolor", "black")].

Definition drone_view : Script unit :=
  st "col2" (markdown (Val (PStr "### 3D Drone View")) false) ;;
  st "col2" (plotly_chart drone_figure true).

(** ** Map *)

Definition map_view (telemetry : Telemetry) : Script unit :=
  st "col3" (markdown (Val (PStr "### Map")) false) ;;
  st "col3" (map_ [lat telemetry] [lon telemetry]) ;;
  st "col3" (markdown (FString [Text "**Coordinates:** ";
                                Interp (PFloat (lat telemetry)); Text ", ";
                                Interp (PFloat (lon telemetry))]) false).

(** ** Speedometer gauges *)

Definition create_gauge (value : pyval) (title : string) (max_val : Z) : figure :=
  update_layout
    (Figure [Indicator "gauge+number" value title (None, Some max_val)
               [("bar.color", "aqua"); ("bgcolor", "black");
                ("borderwidth", "2"); ("bordercolor", "cyan")]])
    [("paper_bgcolor", "black"); ("font.color", "aqua")].

Definition gauges (telemetry : Telemetry) : Script unit :=
  st "main" (markdown (Val (PStr "### Speedometers")) false) ;;
  st "main" (columns (Count 4)) ;;
  st "g1" (plotly_chart
             (create_gauge (PFloat (speed telemetry)) "Speed (m/s)" 50) true) ;;
  st "g2" (plotly_chart
             (create_gauge (PFloat (altitude telemetry)) "Altitude (m)" 300) true) ;;
  st "g3" (plotly_chart
             (create_gauge (PFloat (battery telemetry)) "Battery (V)" 13) true) ;;
  st "g4" (plotly_chart
             (create_gauge (PInt (Py.abs (signal telemetry))) "Signal (dBm)" 100) true).

(** ** Detailed telemetry *)

Definition readings (telemetry : Telemetry) : Script unit :=
  st "main" (markdown (Val (PStr "### Telemetry Readings")) false) ;;
  st "main" (columns (Count 4)) ;;
  st "t1" (metric "Roll" (Val (PFloat (roll telemetry)))) ;;
  st "t2" (metric "Pitch" (Val (PFloat (pitch telemetry)))) ;;
  st "t3" (metric "Yaw" (Val (PFloat (yaw telemetry)))) ;;
  st "t4" (metric "Temperature"
             (FString [Interp (PFloat (temperature telemetry));
                       Text (degree_sign ++ "C")])) ;;
  st "t1" (metric "Pressure"
             (FString [Interp (PFloat (pressure telemetry)); Text " hPa"])) ;;
  st "t2" (metric "Flight Mode" (Val (PStr (mode telemetry)))).

(** ** Telemetry trend *)

Record DataFrame := {
  Time : list Z;
  Altitude : list Q;
  Temperature : list Q;
  Speed : list Q
}.

Definition trend_data (telemetry : Telemetry) : Script DataFrame :=
  now <- lift Py.timestamp_now ;;
  let time_range := Py.date_range_end now 30 in
  v_altitude <- lift (Py.normal (altitude telemetry) 5 30) ;;
  v_temperature <- lift (Py.normal (temperature telemetry) 1 30) ;;
  v_speed <- lift (Py.normal (speed telemetry) (Py.lit (15 # 10)) 30) ;;
  ret {| Time := time_range; Altitude := v_altitude;
         Temperature := v_temperature; Speed := v_speed |}.

Definition trend_figure (data : DataFrame) : figure :=
  let fig := Figure [] in
  let fig := add_trace fig (Scatter (Time data) (Altitude data) "Altitude" (Line "cyan" None)) in
  let fig := add_trace fig (Scatter (Time data) (Temperature data) "Temp" (Line "magenta" None)) in
  let fig := add_trace fig (Scatter (Time data) (Speed data) "Speed" (Line "lime" None)) in
  update_layout fig
    [("plot_bgcolor", "black"); ("paper_bgcolor", "black");
     ("font.color", "aqua"); ("margin", "l=20,r=20,t=40,b=20")].

Definition trends (telemetry : Telemetry) : Script unit :=
  st "main" (markdown (Val (PStr "### Live Telemetry Trends")) false) ;;
  data <- trend_data telemetry ;;
  st "main" (plotly_chart (trend_figure data) true).

(** ** The whole page *)

(** Everything the script does once it holds its reading. *)
Definition render (telemetry : Telemetry) : Script unit :=
  alert telemetry ;;
  st "main" (columns (Widths [1; 2; 1]%Z)) ;;
  controls ;;
  drone_view ;;
  map_view telemetry ;;
  gauges telemetry ;;
  readings telemetry ;;
  trends telemetry.

Definition main : Script unit :=
  st "main" (set_page_config "Neon Drone Dashboard" "wide") ;;
  st "main" (markdown (Val (PStr neon_css)) true) ;;
  telemetry <- generate_telemetry ;;
  render telemetry.

(** The reading a run samples, and the page it writes. *)
Definition sample (w : world) : Telemetry := fst (fst (generate_telemetry w)).
Definition page (w : world) : list placed := snd (main w).
Definition page_of (telemetry : Telemetry) (w : world) : list placed :=
  snd (render telemetry w).

(** ** Observations used by the statements below *)

(** The [i]-th outcome of [random.random()] counted from the cursor. *)
Definition unit_draw (w : world) (i : nat) : Q :=
  (py_entropy w (i + py_pos w) mod 2 ^ 53)%Z # 2 ^ 53.

(** The largest outcome of [random.random()], 1 - 2^-53. *)
Definition unit_max : Q := (2 ^ 53 - 1)%Z # 2 ^ 53.

(** The value [random.uniform(a, b)] computes from the outcome [u]. *)
Definition uniform_at (a b u : Q) : Q := fadd a (fmul (fsub b a) u).

(** The two extreme values of [round(uniform(a, b), n)] lie in [[lo, hi]]. *)
Definition endpoints_ok (lo hi a b : Q) (n : nat) : bool :=
  Qle_bool 0 (fsub b a)
  && Qle_bool lo (Py.round (uniform_at a b 0) n)
  && Qle_bool (Py.round (uniform_at a b unit_max) n) hi.

(** The [i]-th standard normal draw counted from the cursor. *)
Definition noise (w : world) (i : nat) : Q := fl (np_entropy w (i + np_pos w)).

(** The world in which the reading has been sampled and nothing else. *)
Definition sampled (w : world) : world := snd (fst (generate_telemetry w)).

(** The trend table a run builds from the reading [telemetry]. *)
Definition trend_of (telemetry : Telemetry) (w : world) : DataFrame :=
  fst (fst (trend_data telemetry w)).

(** The gauge figures drawn on a page, in order, and the figure a
    container holds. *)
Definition indicators (p : list placed) : list (string * trace) :=
  flat_map (fun cw =>
    match snd cw with
    | plotly_chart fig _ =>
        flat_map (fun t => match t with
                           | Indicator _ _ _ _ _ => [(fst cw, t)]
                           | _ => []
                           end) (traces fig)
    | _ => []
    end) p.

Definition charts_in (container : string) (p : list placed) : list figure :=
  flat_map (fun cw =>
    match snd cw with
    | plotly_chart fig _ => if String.eqb (fst cw) container then [fig] else []
    | _ => []
    end) p.

Definition line_segments (fig : figure) : list trace :=
  filter (fun t => match t with
                   | Scatter3d _ _ _ m _ _ => String.eqb m "lines"
                   | _ => false
                   end) (traces fig).

Definition gauge_titled (title : string) (p : list placed) : option trace :=
  find (fun t => match t with
                 | Indicator _ _ ti _ _ => String.eqb ti title
                 | _ => false
                 end) (List.map snd (indicators p)).

Definition gauge_value (g : option trace) : option pyval :=
  match g with
  | Some (Indicator _ v _ _ _) => Some v
  | _ => None
  end.

Definition gauge_range (g : option trace) : option (option Z * option Z) :=
  match g with
  | Some (Indicator _ _ _ r _) => Some r
  | _ => None
  end.

(** The axis a gauge shows: plotly fills an end of the range that is given
    as [None] from the default range of an indicator axis, which starts
    at 0. *)
Definition axis_domain (r : option Z * option Z) : option (Z * Z) :=
  match r with
  | (lo, Some hi) => Some (match lo with Some l => l | None => 0%Z end, hi)
  | (_, None) => None
  end.

(** The pins of the maps drawn on a page. *)
Definition map_pins (p : list placed) : list (Q * Q) :=
  flat_map (fun cw =>
    match snd cw with
    | map_ la lo => combine la lo
    | _ => []
    end) p.

(** The trend table of a whole run. *)
Definition trend (w : world) : DataFrame := trend_of (sample w) (sampled w).

(** The domain table of a reading; [yaw_ok] is the constraint on the yaw
    field.  Bounds written as decimals are the float literals a Python test
    would compare against. *)
Definition in_domain (yaw_ok : Q -> Prop) (t : Telemetry) : Prop :=
  In (mode t) ["Auto"; "Manual"; "RTL"; "Loiter"] /\
  (Py.lit (85 # 10) <= battery t <= Py.lit (126 # 10)) /\
  (-90 <= signal t <= -50)%Z /\
  (100 <= altitude t <= 250) /\
  (18 <= temperature t <= 30) /\
  (960 <= pressure t <= 1025) /\
  (-10 <= roll t <= 10) /\
  (-30 <= pitch t <= 30) /\
  yaw_ok (yaw t) /\
  (Py.lit (2913 # 100) <= lat t <= Py.lit (2914 # 100)) /\
  (Py.lit (7722 # 100) <= lon t <= Py.lit (7723 # 100)) /\
  (5 <= speed t <= 25).

(** Yaw as the domain table declares it, and as the sampler delivers it. *)
Definition yaw_half_open (y : Q) : Prop := 0 <= y /\ y < 360.
Definition yaw_closed (y : Q) : Prop := 0 <= y <= 360.

(** A run in which every outcome of [random] is the largest one. *)
Definition top_world : world :=
  {| py_entropy := fun _ => (2 ^ 53 - 1)%Z; py_pos := 0;
     np_entropy := fun _ => 3; np_pos := 0; clock := 1700000000000000000 |}.

(** A run in which every outcome of [random] is the smallest one. *)
Definition bottom_world : world :=
  {| py_entropy := fun _ => 0%Z; py_pos := 0;
     np_entropy := fun _ => -3; np_pos := 0; clock := 1700000000000000000 |}.

(** A reading with its battery field replaced. *)
Definition with_battery (t : Telemetry) (b : Q) : Telemetry :=
  {| mode := mode t; battery := b; signal := signal t; altitude := altitude t;
     temperature := temperature t; pressure := pressure t; roll := roll t;
     pitch := pitch t; yaw := yaw t; lat := lat t; lon := lon t;
     speed := speed t |}.

(** ** The Standard Library's IEEE 754 operations, for comparison *)

(** The rational a [spec_float] denotes, and the binary64 number
    [m * 2^e]. *)
Definition SF2Q (x : spec_float) : option Q :=
  match x with
  | S754_zero _ => Some 0%Q
  | S754_finite s m e =>
      Some ((if s then -1 else 1) * inject_Z (Zpos m) * pow2 e)%Q
  | _ => None
  end.

Definition binary64_of (m e : Z) : spec_float :=
  binary_normalize 53 1024 m e false.

Definition agree (x : option Q) (y : Q) : bool :=
  match x with
  | Some q => Qeq_bool q y
  | None => false
  end.

(** The smallest outcome of [random.random()], as a multiple of 2^-53, for
    which [round(uniform(0, 360), 2)] is 360.0. *)
Definition yaw_rollover : Z := 9007074154751343.

(** ** Observations of the rest of the page *)

(** The world a whole run leaves behind. *)
Definition final (w : world) : world := snd (fst (main w)).

(** What each gauge of a page shows: container, title, value and the upper
    end of its axis. *)
Definition gauge_summary (p : list placed)
  : list (string * string * pyval * option Z) :=
  List.map (fun g => match snd g with
                     | Indicator _ v ti r _ => (fst g, ti, v, snd r)
                     | _ => (fst g, EmptyString, PStr EmptyString, None)
                     end) (indicators p).

(** The metric readouts of a page: container, label and value. *)
Definition metrics (p : list placed) : list (string * string * content) :=
  flat_map (fun cw =>
    match snd cw with
    | metric l v => [(fst cw, l, v)]
    | _ => []
    end) p.

(** The Streamlit call behind a widget, and the layout of a page: which
    call wrote into which container, in order. *)
Definition kind (wd : widget) : string :=
  match wd with
  | set_page_config _ _ => "set_page_config"
  | markdown _ _ => "markdown"
  | error _ _ => "error"
  | columns _ => "columns"
  | slider _ _ _ _ => "slider"
  | toggle _ _ => "toggle"
  | button _ => "button"
  | plotly_chart _ _ => "plotly_chart"
  | map_ _ _ => "map"
  | metric _ _ => "metric"
  end.

Definition is_error (cw : placed) : bool :=
  match snd cw with
  | error _ _ => true
  | _ => false
  end.

Definition layout_of (p : list placed) : list (string * string) :=
  List.map (fun cw => (fst cw, kind (snd cw))) p.

(** [x] is the float nearest to a decimal with [d] digits after the point,
    [n / 10^d] with [lo <= n <= hi]. *)
Definition on_grid (d : nat) (lo hi : Z) (x : Q) : Prop :=
  exists n, (lo <= n <= hi)%Z /\ x = fl (inject_Z n / Py.pow10 d).

(** The two extreme draws of [round(uniform(a, b), d)] round to decimals
    [n / 10^d] with [lo <= n <= hi]. *)
Definition digits_ok (lo hi : Z) (a b : Q) (d : nat) : bool :=
  Qle_bool 0 (fsub b a)
  && (lo <=? rhe (uniform_at a b 0 * Py.pow10 d))%Z
  && (rhe (uniform_at a b unit_max * Py.pow10 d) <=? hi)%Z.

(** The smallest outcome of [random.random()], as a multiple of 2^-53, for
    which [round(uniform(8.5, 12.6), 2)] is no longer below 9.0. *)
Definition alert_cutoff : Z := 1087454544169950.

(** The calls of a page and their containers, the alert left out. *)
Definition fixed_layout : list (string * string) :=
  [("main", "set_page_config"); ("main", "markdown"); ("main", "columns");
   ("col1", "markdown"); ("col1", "slider"); ("col1", "toggle");
   ("col1", "toggle"); ("col1", "toggle"); ("col1", "button");
   ("col2", "markdown"); ("col2", "plotly_chart");
   ("col3", "markdown"); ("col3", "map"); ("col3", "markdown");
   ("main", "markdown"); ("main", "columns");
   ("g1", "plotly_chart"); ("g2", "plotly_chart"); ("g3", "plotly_chart");
   ("g4", "plotly_chart");
   ("main", "markdown"); ("main", "columns");
   ("t1", "metric"); ("t2", "metric"); ("t3", "metric"); ("t4", "metric");
   ("t1", "metric"); ("t2", "metric");
   ("main", "markdown"); ("main", "plotly_chart")].

(** A run that agrees with [top_world] on the first twelve outcomes of
    [random] and on nothing else. *)
Definition late_world : world :=
  {| py_entropy := fun i => if (i <? 12)%nat then (2 ^ 53 - 1)%Z else 0%Z;
     py_pos := 0;
     np_entropy := fun _ => 0; np_pos := 5; clock := 0 |}.

(** * Facts *)

(** ** Rounding onto the binary64 grid is monotone *)

Module Binary64Facts.

Lemma pow2_pos e : 0 < pow2 e.
Proof. apply Qpower_0_lt. reflexivity. Qed.

Lemma pow2_add a b : pow2 (a + b) == pow2 a * pow2 b.
Proof. apply Qpower_plus. discriminate. Qed.

Lemma pow2_le a b : (a <= b)%Z -> pow2 a <= pow2 b.
Proof. intros H. apply Qpower_le_compat_l; [exact H | discriminate]. Qed.

Lemma pow2_lt_inv a b : pow2 a < pow2 b -> (a < b)%Z.
Proof. intros H. apply (Qpower_lt_compat_l_inv (2 # 1)); [exact H | reflexivity]. Qed.

Lemma pow2_inject n : (0 <= n)%Z -> pow2 n == inject_Z (2 ^ n).
Proof. intros H. unfold pow2. rewrite Zpower_Qpower by exact H. reflexivity. Qed.

Lemma pow2_div x a b : x / pow2 a * pow2 b == x * pow2 (b - a).
Proof.
  replace (b - a)%Z with (b + - a)%Z by ring.
  rewrite pow2_add. unfold pow2 at 4. rewrite Qpower_opp. fold (pow2 a).
  field. pose proof (pow2_pos a). lra.
Qed.

Lemma div_lt_div a b c d : 0 < b -> 0 < d -> a * d < c * b -> a / b < c / d.
Proof.
  intros Hb Hd H. apply Qlt_shift_div_r; [exact Hb|].
  setoid_replace (c / d * b) with (c * b / d) by (field; lra).
  apply Qlt_shift_div_l; assumption.
Qed.

Lemma div_le_div a b c d : 0 < b -> 0 < d -> a * d <= c * b -> a / b <= c / d.
Proof.
  intros Hb Hd H. apply Qle_shift_div_r; [exact Hb|].
  setoid_replace (c / d * b) with (c * b / d) by (field; lra).
  apply Qle_shift_div_l; assumption.
Qed.

Lemma ilog2_spec x : 0 < x -> pow2 (ilog2 x) <= x /\ x < pow2 (ilog2 x + 1).
Proof.
  intros Hx. destruct x as [n d]. unfold ilog2. cbn [Qnum Qden].
  assert (Hn : (0 < n)%Z) by (unfold Qlt in Hx; cbn in Hx; lia).
  set (a := Z.log2 n). set (b := Z.log2 (Zpos d)).
  assert (Ha : (2 ^ a <= n < 2 ^ (a + 1))%Z).
  { unfold a. pose proof (Z.log2_spec n Hn). rewrite <- Z.add_1_r in H. exact H. }
  assert (Hb : (2 ^ b <= Zpos d < 2 ^ (b + 1))%Z).
  { unfold b. pose proof (Z.log2_spec (Zpos d) eq_refl). rewrite <- Z.add_1_r in H. exact H. }
  assert (Ha0 : (0 <= a)%Z) by apply Z.log2_nonneg.
  assert (Hb0 : (0 <= b)%Z) by apply Z.log2_nonneg.
  assert (Hnd : n # d == inject_Z n / inject_Z (Zpos d)) by apply Qmake_Qdiv.
  assert (Hd : 0 < inject_Z (Zpos d)) by reflexivity.
  assert (Hpa : forall k, (0 <= k)%Z -> 0 < inject_Z (2 ^ k)).
  { intros k Hk. rewrite <- (pow2_inject k) by exact Hk. apply pow2_pos. }
  assert (Hup : n # d < pow2 (a - b + 1)).
  { replace (a - b + 1)%Z with ((a + 1) - b)%Z by ring.
    unfold pow2. rewrite Qpower_minus by discriminate.
    fold (pow2 (a + 1)). fold (pow2 b).
    rewrite (pow2_inject (a + 1)) by lia. rewrite (pow2_inject b) by lia.
    rewrite Hnd. apply div_lt_div; [exact Hd | apply Hpa; lia |].
    rewrite <- !inject_Z_mult. rewrite <- Zlt_Qlt. nia. }
  assert (Hlo : pow2 (a - b - 1) <= n # d).
  { replace (a - b - 1)%Z with (a - (b + 1))%Z by ring.
    unfold pow2. rewrite Qpower_minus by discriminate.
    fold (pow2 a). fold (pow2 (b + 1)).
    rewrite (pow2_inject a) by lia. rewrite (pow2_inject (b + 1)) by lia.
    rewrite Hnd. apply div_le_div; [apply Hpa; lia | exact Hd |].
    rewrite <- !inject_Z_mult. rewrite <- Zle_Qle. nia. }
  destruct (Qle_bool (pow2 (a - b)) (n # d)) eqn:E.
  - apply Qle_bool_iff in E. split; assumption.
  - split; [exact Hlo|].
    replace (a - b - 1 + 1)%Z with (a - b)%Z by ring.
    apply Qnot_le_lt. intros H. apply Qle_bool_iff in H. congruence.
Qed.

Lemma ilog2_mono x y : 0 < x -> x <= y -> (ilog2 x <= ilog2 y)%Z.
Proof.
  intros Hx Hxy.
  assert (Hy : 0 < y) by lra.
  destruct (ilog2_spec x Hx) as [Lx _].
  destruct (ilog2_spec y Hy) as [_ Uy].
  assert (H : pow2 (ilog2 x) < pow2 (ilog2 y + 1)) by lra.
  apply pow2_lt_inv in H. lia.
Qed.

Lemma cexp_mono x y : 0 < x -> x <= y -> (cexp x <= cexp y)%Z.
Proof.
  intros Hx Hxy. unfold cexp. pose proof (ilog2_mono x y Hx Hxy). lia.
Qed.

(** *** Rounding to an integer *)

Lemma rhe_bounds x : (Qfloor x <= rhe x <= Qfloor x + 1)%Z.
Proof.
  unfold rhe. destruct (Qcompare _ _); [destruct (Z.even _) | |]; lia.
Qed.

Lemma rhe_inject n : rhe (inject_Z n) = n.
Proof.
  unfold rhe. rewrite Qfloor_Z.
  destruct (Qcompare_spec (inject_Z n - inject_Z n) (1 # 2)) as [H | H | H];
    [exfalso; lra | reflexivity | exfalso; lra].
Qed.

Lemma rhe_mono x y : x <= y -> (rhe x <= rhe y)%Z.
Proof.
  intros Hxy.
  pose proof (Qfloor_resp_le x y Hxy) as Hf.
  pose proof (rhe_bounds x) as Bx. pose proof (rhe_bounds y) as By.
  destruct (Z.eq_dec (Qfloor x) (Qfloor y)) as [E | NE]; [| lia].
  unfold rhe. rewrite E.
  destruct (Qcompare_spec (x - inject_Z (Qfloor y)) (1 # 2)) as [Hx | Hx | Hx];
    destruct (Qcompare_spec (y - inject_Z (Qfloor y)) (1 # 2)) as [Hy | Hy | Hy];
    try destruct (Z.even (Qfloor y)); try lia; exfalso; lra.
Qed.

Lemma rhe_le_inject x n : x <= inject_Z n -> (rhe x <= n)%Z.
Proof. intros H. apply rhe_mono in H. rewrite rhe_inject in H. exact H. Qed.

Lemma rhe_ge_inject x n : inject_Z n <= x -> (n <= rhe x)%Z.
Proof. intros H. apply rhe_mono in H. rewrite rhe_inject in H. exact H. Qed.

(** *** Rounding onto the binary64 grid *)

Lemma round_pos_eq x : round_pos x == inject_Z (rhe (x / pow2 (cexp x))) * pow2 (cexp x).
Proof. unfold round_pos. apply Qred_correct. Qed.

(** A grid point [2^k] that lies on the grid of [x] bounds the rounding of
    [x] from whichever side it bounds [x]. *)
Lemma round_pos_le_pow2 x k :
  (cexp x <= k)%Z -> x <= pow2 k -> round_pos x <= pow2 k.
Proof.
  intros Hk Hx. rewrite round_pos_eq.
  set (e := cexp x) in *.
  assert (Hk' : pow2 k == inject_Z (2 ^ (k - e)) * pow2 e).
  { rewrite <- pow2_inject by lia. rewrite <- pow2_add. f_equiv. ring. }
  rewrite Hk'. apply Qmult_le_compat_r; [| apply Qlt_le_weak, pow2_pos].
  rewrite <- Zle_Qle. apply rhe_le_inject.
  apply Qle_shift_div_r; [apply pow2_pos |]. rewrite <- Hk'. exact Hx.
Qed.

Lemma round_pos_ge_pow2 x k :
  (cexp x <= k)%Z -> pow2 k <= x -> pow2 k <= round_pos x.
Proof.
  intros Hk Hx. rewrite round_pos_eq.
  set (e := cexp x) in *.
  assert (Hk' : pow2 k == inject_Z (2 ^ (k - e)) * pow2 e).
  { rewrite <- pow2_inject by lia. rewrite <- pow2_add. f_equiv. ring. }
  rewrite Hk'. apply Qmult_le_compat_r; [| apply Qlt_le_weak, pow2_pos].
  rewrite <- Zle_Qle. apply rhe_ge_inject.
  apply Qle_shift_div_l; [apply pow2_pos |]. rewrite <- Hk'. exact Hx.
Qed.

Lemma round_pos_nonneg x : 0 < x -> 0 <= round_pos x.
Proof.
  intros Hx. rewrite round_pos_eq.
  apply Qmult_le_0_compat; [| apply Qlt_le_weak, pow2_pos].
  change 0 with (inject_Z 0). rewrite <- Zle_Qle. apply rhe_ge_inject.
  apply Qle_shift_div_l; [apply pow2_pos |].
  change (inject_Z 0) with 0. rewrite Qmult_0_l. lra.
Qed.

Lemma round_pos_mono x y : 0 < x -> x <= y -> round_pos x <= round_pos y.
Proof.
  intros Hx Hxy.
  assert (Hy : 0 < y) by lra.
  pose proof (cexp_mono x y Hx Hxy) as Hc.
  destruct (Z.eq_dec (cexp x) (cexp y)) as [E | NE].
  - rewrite !round_pos_eq, E.
    apply Qmult_le_compat_r; [| apply Qlt_le_weak, pow2_pos].
    rewrite <- Zle_Qle. apply rhe_mono.
    apply Qmult_le_compat_r; [exact Hxy |].
    apply Qlt_le_weak, Qinv_lt_0_compat, pow2_pos.
  - destruct (ilog2_spec x Hx) as [_ Ux].
    destruct (ilog2_spec y Hy) as [Ly _].
    assert (Hlt : (ilog2 x < ilog2 y)%Z) by (unfold cexp in *; lia).
    apply Qle_trans with (pow2 (ilog2 y)).
    + apply round_pos_le_pow2; [unfold cexp, prec, emin in *; lia |].
      apply Qle_trans with (pow2 (ilog2 x + 1)); [lra | apply pow2_le; lia].
    + apply round_pos_ge_pow2; [unfold cexp, prec, emin in *; lia | exact Ly].
Qed.

Theorem fl_mono x y : x <= y -> fl x <= fl y.
Proof.
  intros Hxy. unfold fl.
  destruct (Qcompare_spec x 0) as [Hx | Hx | Hx];
    destruct (Qcompare_spec y 0) as [Hy | Hy | Hy]; try (exfalso; lra).
  - lra.
  - apply round_pos_nonneg; exact Hy.
  - assert (H : 0 <= round_pos (- x)) by (apply round_pos_nonneg; lra). lra.
  - assert (H : round_pos (- y) <= round_pos (- x)) by (apply round_pos_mono; lra).
    lra.
  - assert (H : 0 <= round_pos (- x)) by (apply round_pos_nonneg; lra).
    assert (H' : 0 <= round_pos y) by (apply round_pos_nonneg; lra). lra.
  - apply round_pos_mono; assumption.
Qed.

Lemma fl_compat x y : x == y -> fl x == fl y.
Proof.
  intros E. apply Qle_antisym; apply fl_mono; rewrite E; apply Qle_refl.
Qed.

End Binary64Facts.


(** ** The sampler *)

(** ** Agreement with the Standard Library's binary64

    On the operands that the extreme draws produce, the arithmetic above
    returns what [SFmul], [SFadd], [SFsub] and [SFdiv] return at precision 53
    and maximal exponent 1024. *)

Module Conformance.

Local Open Scope Z_scope.

Lemma yaw_product :
  agree (SF2Q (SFmul 53 1024 (binary64_of 360 0) (binary64_of (2 ^ 53 - 1) (-53))))
        (fmul 360 unit_max) = true.
Proof. vm_compute. reflexivity. Qed.

Lemma yaw_sum :
  agree (SF2Q (SFadd 53 1024 (binary64_of 0 0)
                 (SFmul 53 1024 (binary64_of 360 0) (binary64_of (2 ^ 53 - 1) (-53)))))
        (uniform_at 0 360 unit_max) = true.
Proof. vm_compute. reflexivity. Qed.

Lemma yaw_read_back :
  agree (SF2Q (SFdiv 53 1024 (binary64_of 36000 0) (binary64_of 100 0)))
        (Py.round (uniform_at 0 360 unit_max) 2) = true.
Proof. vm_compute. reflexivity. Qed.

Lemma battery_literal :
  agree (SF2Q (SFdiv 53 1024 (binary64_of 126 0) (binary64_of 10 0)))
        (Py.lit (126 # 10)) = true.
Proof. vm_compute. reflexivity. Qed.

Lemma battery_width :
  agree (SF2Q (SFsub 53 1024
                 (SFdiv 53 1024 (binary64_of 126 0) (binary64_of 10 0))
                 (binary64_of 17 (-1))))
        (fsub (Py.lit (126 # 10)) (Py.lit (85 # 10))) = true.
Proof. vm_compute. reflexivity. Qed.

Lemma lat_width :
  agree (SF2Q (SFsub 53 1024
                 (SFdiv 53 1024 (binary64_of 2914 0) (binary64_of 100 0))
                 (SFdiv 53 1024 (binary64_of 2913 0) (binary64_of 100 0))))
        (fsub (Py.lit (2914 # 100)) (Py.lit (2913 # 100))) = true.
Proof. vm_compute. reflexivity. Qed.

Lemma trend_point :
  agree (SF2Q (SFadd 53 1024 (binary64_of 250 0)
                 (SFmul 53 1024 (binary64_of 5 0) (binary64_of 3 0))))
        (fadd 250 (fmul 5 3)) = true.
Proof. vm_compute. reflexivity. Qed.

End Conformance.

(** The rounding function is never unfolded on symbolic arguments. *)
Opaque fl.

Section Sampler.

Local Open Scope Q_scope.

Lemma Qltb_lt x y : Qltb x y = true <-> x < y.
Proof.
  unfold Qltb. rewrite negb_true_iff. split.
  - intros H. apply Qnot_le_lt. intros L. apply Qle_bool_iff in L. congruence.
  - intros H. destruct (Qle_bool y x) eqn:E; [| reflexivity].
    apply Qle_bool_iff in E. exfalso. lra.
Qed.

Lemma pow10_pos n : 0 < Py.pow10 n.
Proof.
  unfold Py.pow10. change 0 with (inject_Z 0). rewrite <- Zlt_Qlt.
  apply Z.pow_pos_nonneg; lia.
Qed.

Lemma round_mono x y n : x <= y -> Py.round x n <= Py.round y n.
Proof.
  intros H. unfold Py.round. apply Binary64Facts.fl_mono.
  pose proof (pow10_pos n) as P.
  apply Qmult_le_compat_r; [| apply Qlt_le_weak, Qinv_lt_0_compat, P].
  rewrite <- Zle_Qle. apply Binary64Facts.rhe_mono.
  apply Qmult_le_compat_r; [exact H | apply Qlt_le_weak, P].
Qed.

Lemma uniform_at_mono a b u v :
  0 <= fsub b a -> u <= v -> uniform_at a b u <= uniform_at a b v.
Proof.
  intros W H. unfold uniform_at, fadd, fmul.
  apply Binary64Facts.fl_mono.
  assert (M : fl (fsub b a * u) <= fl (fsub b a * v)).
  { apply Binary64Facts.fl_mono. rewrite !(Qmult_comm (fsub b a)).
    apply Qmult_le_compat_r; assumption. }
  lra.
Qed.

Lemma unit_draw_range w i : 0 <= unit_draw w i <= unit_max.
Proof.
  unfold unit_draw, unit_max.
  pose proof (Z.mod_pos_bound (py_entropy w (i + py_pos w)) (2 ^ 53) eq_refl) as B.
  unfold Qle. cbn [Qnum Qden]. lia.
Qed.

(** A rounded uniform draw lies between its values at the two extreme
    outcomes of [random.random()]. *)
Lemma round_uniform_between a b n w i :
  0 <= fsub b a ->
  Py.round (uniform_at a b 0) n
    <= Py.round (uniform_at a b (unit_draw w i)) n
    <= Py.round (uniform_at a b unit_max) n.
Proof.
  intros W. destruct (unit_draw_range w i) as [L U].
  split; apply round_mono, uniform_at_mono; assumption.
Qed.

Lemma sample_eq w :
  sample w =
  {| mode := nth (Z.to_nat (py_entropy w (py_pos w) mod 4))
               ["Auto"; "Manual"; "RTL"; "Loiter"] EmptyString;
     battery := Py.round (uniform_at (Py.lit (85 # 10)) (Py.lit (126 # 10)) (unit_draw w 1)) 2;
     signal := (-90 + py_entropy w (2 + py_pos w) mod 41)%Z;
     altitude := Py.round (uniform_at 100 250 (unit_draw w 3)) 2;
     temperature := Py.round (uniform_at 18 30 (unit_draw w 4)) 2;
     pressure := Py.round (uniform_at 960 1025 (unit_draw w 5)) 2;
     roll := Py.round (uniform_at (-10) 10 (unit_draw w 6)) 2;
     pitch := Py.round (uniform_at (-30) 30 (unit_draw w 7)) 2;
     yaw := Py.round (uniform_at 0 360 (unit_draw w 8)) 2;
     lat := Py.round (uniform_at (Py.lit (2913 # 100)) (Py.lit (2914 # 100)) (unit_draw w 9)) 6;
     lon := Py.round (uniform_at (Py.lit (7722 # 100)) (Py.lit (7723 # 100)) (unit_draw w 10)) 6;
     speed := Py.round (uniform_at 5 25 (unit_draw w 11)) 2 |}.
Proof. destruct w. reflexivity. Qed.

Lemma round_uniform_range lo hi a b n :
  endpoints_ok lo hi a b n = true ->
  forall w i, lo <= Py.round (uniform_at a b (unit_draw w i)) n <= hi.
Proof.
  unfold endpoints_ok. rewrite !andb_true_iff, !Qle_bool_iff.
  intros [[W L] U] w i.
  destruct (round_uniform_between a b n w i W) as [L' U'].
  split; [exact (Qle_trans _ _ _ L L') | exact (Qle_trans _ _ _ U' U)].
Qed.

Ltac sampled_range :=
  intros w; rewrite sample_eq; cbn [battery altitude temperature pressure
    roll pitch yaw lat lon speed];
  apply round_uniform_range; vm_compute; reflexivity.

Lemma battery_range :
  forall w, Py.lit (85 # 10) <= battery (sample w) <= Py.lit (126 # 10).
Proof. sampled_range. Qed.

Lemma altitude_range : forall w, 100 <= altitude (sample w) <= 250.
Proof. sampled_range. Qed.

Lemma temperature_range : forall w, 18 <= temperature (sample w) <= 30.
Proof. sampled_range. Qed.

Lemma pressure_range : forall w, 960 <= pressure (sample w) <= 1025.
Proof. sampled_range. Qed.

Lemma roll_range : forall w, -10 <= roll (sample w) <= 10.
Proof. sampled_range. Qed.

Lemma pitch_range : forall w, -30 <= pitch (sample w) <= 30.
Proof. sampled_range. Qed.

Lemma yaw_range : forall w, 0 <= yaw (sample w) <= 360.
Proof. sampled_range. Qed.

Lemma lat_range :
  forall w, Py.lit (2913 # 100) <= lat (sample w) <= Py.lit (2914 # 100).
Proof. sampled_range. Qed.

Lemma lon_range :
  forall w, Py.lit (7722 # 100) <= lon (sample w) <= Py.lit (7723 # 100).
Proof. sampled_range. Qed.

Lemma speed_range : forall w, 5 <= speed (sample w) <= 25.
Proof. sampled_range. Qed.

Lemma signal_range : forall w, (-90 <= signal (sample w) <= -50)%Z.
Proof.
  intros w. rewrite sample_eq. cbn [signal].
  pose proof (Z.mod_pos_bound (py_entropy w (2 + py_pos w)) 41 eq_refl). lia.
Qed.

Lemma mode_range :
  forall w, In (mode (sample w)) ["Auto"; "Manual"; "RTL"; "Loiter"].
Proof.
  intros w. rewrite sample_eq. cbn [mode].
  pose proof (Z.mod_pos_bound (py_entropy w (py_pos w)) 4 eq_refl) as B.
  set (j := (py_entropy w (py_pos w) mod 4)%Z) in *.
  assert (C : j = 0%Z \/ j = 1%Z \/ j = 2%Z \/ j = 3%Z) by lia.
  destruct C as [-> | [-> | [-> | ->]]]; cbn; tauto.
Qed.

Lemma yaw_top : yaw (sample top_world) == 360.
Proof. vm_compute. reflexivity. Qed.

(** X11: yaw is 360.0 exactly when the outcome of [random.random()] is at
    least [yaw_rollover] / 2^53, that is for about 1.39e-5 of the outcomes. *)
Lemma yaw_is_360_iff w :
  yaw (sample w) == 360 <->
  (yaw_rollover <= py_entropy w (8 + py_pos w) mod 2 ^ 53)%Z.
Proof.
  pose proof (yaw_range w) as [_ U].
  rewrite sample_eq in *. cbn [yaw] in *.
  unfold unit_draw in *.
  set (k := (py_entropy w (8 + py_pos w) mod 2 ^ 53)%Z) in *.
  assert (W : 0 <= fsub 360 0) by (apply Qle_bool_imp_le; vm_compute; reflexivity).
  split.
  - intros E. apply Z.nlt_ge. intros K.
    assert (B : k # 2 ^ 53 <= (yaw_rollover - 1)%Z # 2 ^ 53)
      by (unfold Qle, yaw_rollover in *; cbn [Qnum Qden]; lia).
    pose proof (round_mono _ _ 2 (uniform_at_mono 0 360 _ _ W B)) as M.
    assert (T : Py.round (uniform_at 0 360 ((yaw_rollover - 1)%Z # 2 ^ 53)) 2 < 360)
      by (vm_compute; reflexivity).
    rewrite E in M. lra.
  - intros K.
    assert (B : yaw_rollover # 2 ^ 53 <= k # 2 ^ 53)
      by (unfold Qle; cbn [Qnum Qden]; lia).
    pose proof (round_mono _ _ 2 (uniform_at_mono 0 360 _ _ W B)) as M.
    assert (T : 360 <= Py.round (uniform_at 0 360 (yaw_rollover # 2 ^ 53)) 2)
      by (apply Qle_bool_imp_le; vm_compute; reflexivity).
    apply Qle_antisym; [exact U | lra].
Qed.

(** C1 (as stated, refuted): in the run whose every outcome is the largest
    one, the sampled yaw is 360.0, so the reading is outside the declared
    domain, whose yaw interval [0, 360) excludes 360. *)
Lemma declared_domain_violated :
  yaw (sample top_world) == 360 /\
  ~ in_domain yaw_half_open (sample top_world).
Proof.
  split; [exact yaw_top |].
  intros (_ & _ & _ & _ & _ & _ & _ & _ & [_ Y] & _).
  rewrite yaw_top in Y. lra.
Qed.

(** C1 (amended): for every run, every field of the reading returned by
    [generate_telemetry] is within its declared domain, with the yaw domain
    closed at 360: mode is one of the four flight modes, battery is in
    [8.5, 12.6], signal is an integer in [-90, -50], altitude in [100, 250],
    temperature in [18, 30], pressure in [960, 1025], roll in [-10, 10],
    pitch in [-30, 30], yaw in [0, 360], lat in [29.13, 29.14], lon in
    [77.22, 77.23] and speed in [5, 25]. *)
Theorem sampled_reading_in_domain :
  forall w, in_domain yaw_closed (sample w).
Proof.
  intros w.
  exact (conj (mode_range w) (conj (battery_range w) (conj (signal_range w)
        (conj (altitude_range w) (conj (temperature_range w)
        (conj (pressure_range w) (conj (roll_range w) (conj (pitch_range w)
        (conj (yaw_range w) (conj (lat_range w) (conj (lon_range w)
        (speed_range w)))))))))))).
Qed.

(** C4 (as stated, refuted): [round(uniform(0, 360), 2)] reaches 360.0.
    With the largest outcome of [random.random()], [uniform(0, 360)] is
    359.99999999999994, which rounds to 360.0 at two decimals. *)
Lemma yaw_reaches_360 :
  uniform_at 0 360 unit_max == 6333186975989759 # 17592186044416 /\
  Py.round (uniform_at 0 360 unit_max) 2 == 360 /\
  yaw (sample top_world) == 360 /\
  ~ yaw_half_open (yaw (sample top_world)).
Proof.
  split; [vm_compute; reflexivity |].
  split; [vm_compute; reflexivity |].
  split; [exact yaw_top |].
  intros [_ Y]. rewrite yaw_top in Y. lra.
Qed.

(** C4 (amended): for every run, the yaw field is
    [round(uniform(0, 360), 2)] of that run's draw and lies in the closed
    interval [0, 360]. *)
Theorem yaw_in_closed_interval :
  forall w,
    yaw (sample w) = Py.round (uniform_at 0 360 (unit_draw w 8)) 2 /\
    yaw_closed (yaw (sample w)).
Proof.
  intros w. split; [rewrite sample_eq; cbn [yaw]; reflexivity | apply yaw_range].
Qed.

End Sampler.

(** ** The page *)

Section Page.

Local Open Scope Q_scope.

Lemma sampled_eq w :
  sampled w =
  {| py_entropy := py_entropy w; py_pos := 12 + py_pos w;
     np_entropy := np_entropy w; np_pos := np_pos w; clock := clock w |}.
Proof. destruct w. reflexivity. Qed.

Lemma generate_telemetry_eq w :
  generate_telemetry w = (sample w, sampled w, []).
Proof. destruct w. reflexivity. Qed.

(** The page of a run is the two page-setup calls followed by the
    rendering of the sampled reading. *)
Lemma page_eq w :
  page w =
  ("main", set_page_config "Neon Drone Dashboard" "wide")
    :: ("main", markdown (Val (PStr neon_css)) true)
    :: page_of (sample w) (sampled w).
Proof.
  unfold page, main, bind. cbn [st]. rewrite generate_telemetry_eq.
  unfold page_of. destruct (render (sample w) (sampled w)) as [[u w'] out].
  reflexivity.
Qed.

Lemma page_of_eq t w :
  page_of t w =
  (snd (alert t w)
     ++ ("main", columns (Widths [1; 2; 1]%Z))
     :: snd (controls w) ++ snd (drone_view w) ++ snd (map_view t w)
     ++ snd (gauges t w) ++ snd (readings t w) ++ snd (trends t w))%list.
Proof.
  destruct w. unfold page_of, render, alert.
  destruct (Qltb (battery t) (Py.lit 9)); reflexivity.
Qed.

Lemma nine_exact : Py.lit 9 == 9.
Proof. vm_compute. reflexivity. Qed.

Lemma alert_written t w :
  In ("main", battery_alert) (page_of t w) <->
  Qltb (battery t) (Py.lit 9) = true.
Proof.
  rewrite page_of_eq. destruct w. unfold alert, when.
  destruct (Qltb (battery t) (Py.lit 9)).
  - split; [reflexivity | intros _; left; reflexivity].
  - split; [| discriminate]. cbn. intros H.
    repeat (destruct H as [H | H]; [discriminate H |]). destruct H.
Qed.

Lemma alert_written_page w :
  In ("main", battery_alert) (page w) <->
  In ("main", battery_alert) (page_of (sample w) (sampled w)).
Proof.
  rewrite page_eq. cbn [In]. split.
  - intros [H | [H | H]]; [discriminate H | discriminate H | exact H].
  - intros H. right. right. exact H.
Qed.

(** C2: the "Battery Critical!" alert is on the page exactly when the
    reading's battery value is strictly below 9.0, for the page of a run
    and for the rendering of any reading; a reading with battery 8.2
    raises it and a reading with battery 10.0 does not. *)
Theorem battery_alert_iff_below_9 :
  (forall w, In ("main", battery_alert) (page w) <-> battery (sample w) < 9) /\
  (forall t w, In ("main", battery_alert) (page_of t w) <-> battery t < 9) /\
  (forall t w,
     In ("main", battery_alert) (page_of (with_battery t (Py.lit (82 # 10))) w)) /\
  (forall t w,
     ~ In ("main", battery_alert) (page_of (with_battery t (Py.lit 10)) w)).
Proof.
  assert (A : forall t w,
            In ("main", battery_alert) (page_of t w) <-> battery t < 9).
  { intros t w. rewrite alert_written, Qltb_lt, nine_exact. reflexivity. }
  split; [| split; [exact A | split]].
  - intros w.
    exact (iff_trans (alert_written_page w) (A (sample w) (sampled w))).
  - intros t w.
    apply (proj2 (A (with_battery t (Py.lit (82 # 10))) w)).
    cbn [with_battery battery]. vm_compute. reflexivity.
  - intros t w H.
    apply (proj1 (A (with_battery t (Py.lit 10)) w)) in H.
    cbn [with_battery battery] in H. vm_compute in H. discriminate H.
Qed.

(** C8: the alert branch is reachable, and whenever the alert is on the
    page of a run the sampled battery value lies in [8.5, 9.0). *)
Theorem alert_battery_in_critical_band :
  (exists w, In ("main", battery_alert) (page w)) /\
  (forall w, In ("main", battery_alert) (page w) ->
             Py.lit (85 # 10) <= battery (sample w) /\ battery (sample w) < 9).
Proof.
  split.
  - exists bottom_world.
    apply (proj2 (alert_written_page bottom_world)).
    apply (proj2 (alert_written (sample bottom_world) (sampled bottom_world))).
    vm_compute. reflexivity.
  - intros w H.
    apply (proj1 (alert_written_page w)) in H.
    apply (proj1 (alert_written (sample w) (sampled w))) in H.
    rewrite Qltb_lt, nine_exact in H.
    split; [exact (proj1 (battery_range w)) | exact H].
Qed.

(** *** Gauges *)

Lemma indicators_page_of t w :
  indicators (page_of t w) =
  [("g1", Indicator "gauge+number" (PFloat (speed t)) "Speed (m/s)"
            (None, Some 50%Z)
            [("bar.color", "aqua"); ("bgcolor", "black");
             ("borderwidth", "2"); ("bordercolor", "cyan")]);
   ("g2", Indicator "gauge+number" (PFloat (altitude t)) "Altitude (m)"
            (None, Some 300%Z)
            [("bar.color", "aqua"); ("bgcolor", "black");
             ("borderwidth", "2"); ("bordercolor", "cyan")]);
   ("g3", Indicator "gauge+number" (PFloat (battery t)) "Battery (V)"
            (None, Some 13%Z)
            [("bar.color", "aqua"); ("bgcolor", "black");
             ("borderwidth", "2"); ("bordercolor", "cyan")]);
   ("g4", Indicator "gauge+number" (PInt (Py.abs (signal t))) "Signal (dBm)"
            (None, Some 100%Z)
            [("bar.color", "aqua"); ("bgcolor", "black");
             ("borderwidth", "2"); ("bordercolor", "cyan")])].
Proof.
  rewrite page_of_eq. destruct w. unfold alert, when.
  destruct (Qltb (battery t) (Py.lit 9)); reflexivity.
Qed.

Lemma indicators_page w :
  indicators (page w) = indicators (page_of (sample w) (sampled w)).
Proof. rewrite page_eq. reflexivity. Qed.

Lemma signal_gauge_of t w :
  gauge_value (gauge_titled "Signal (dBm)" (page_of t w))
  = Some (PInt (Py.abs (signal t))).
Proof. unfold gauge_titled. rewrite indicators_page_of. reflexivity. Qed.

Lemma altitude_gauge_of t w :
  gauge_titled "Altitude (m)" (page_of t w)
  = Some (Indicator "gauge+number" (PFloat (altitude t)) "Altitude (m)"
            (None, Some 300%Z)
            [("bar.color", "aqua"); ("bgcolor", "black");
             ("borderwidth", "2"); ("bordercolor", "cyan")]).
Proof. unfold gauge_titled. rewrite indicators_page_of. reflexivity. Qed.

Lemma gauge_titled_page title w :
  gauge_titled title (page w)
  = gauge_titled title (page_of (sample w) (sampled w)).
Proof. unfold gauge_titled. rewrite indicators_page. reflexivity. Qed.

(** C5: the signal gauge shows [abs(signal)] of the reading, and for every
    run this displayed value lies in [50, 90]. *)
Theorem signal_gauge_shows_abs_signal :
  (forall t w,
     gauge_value (gauge_titled "Signal (dBm)" (page_of t w))
     = Some (PInt (Z.abs (signal t)))) /\
  (forall w,
     gauge_value (gauge_titled "Signal (dBm)" (page w))
     = Some (PInt (Z.abs (signal (sample w)))) /\
     (50 <= Z.abs (signal (sample w)) <= 90)%Z).
Proof.
  split; [exact signal_gauge_of |].
  intros w. split.
  - rewrite gauge_titled_page. apply signal_gauge_of.
  - pose proof (signal_range w). lia.
Qed.

(** C6: the altitude gauge is drawn with the axis range [None, 300], which
    plotly shows as the axis [0, 300]; it shows the reading's altitude
    unchanged, and for every run that altitude is at least 0, at most 250,
    and so strictly below the gauge maximum 300. *)
Theorem altitude_gauge_never_clamps :
  forall w,
    gauge_range (gauge_titled "Altitude (m)" (page w)) = Some (None, Some 300%Z) /\
    axis_domain (None, Some 300%Z) = Some (0%Z, 300%Z) /\
    gauge_value (gauge_titled "Altitude (m)" (page w))
    = Some (PFloat (altitude (sample w))) /\
    0 <= altitude (sample w) /\
    altitude (sample w) <= 250 /\
    altitude (sample w) < 300.
Proof.
  intros w. rewrite gauge_titled_page, altitude_gauge_of.
  pose proof (altitude_range w) as [L U].
  repeat split; try reflexivity; lra.
Qed.

(** *** 3D drone view *)

Lemma drone_chart_of t w : charts_in "col2" (page_of t w) = [drone_figure].
Proof.
  rewrite page_of_eq. destruct w. unfold alert, when.
  destruct (Qltb (battery t) (Py.lit 9)); reflexivity.
Qed.

Lemma drone_chart_page w : charts_in "col2" (page w) = [drone_figure].
Proof. rewrite page_eq. exact (drone_chart_of (sample w) (sampled w)). Qed.

(** C7 (as stated, refuted): the wireframe drawn in the run [top_world]
    has four line segments, not three. *)
Lemma drone_view_has_four_arms :
  charts_in "col2" (page top_world) = [drone_figure] /\
  List.length (line_segments drone_figure) = 4%nat /\
  List.length (line_segments drone_figure) <> 3%nat.
Proof.
  split; [apply drone_chart_page |]. split; [reflexivity | discriminate].
Qed.

(** C7 (amended): the 3D wireframe is a static four-segment X around a
    fixed origin: the figure is the same constant for any two readings and
    any two runs, it is a body marker at the origin and four line segments
    that each start at the origin, and so it never depends on roll, pitch
    or yaw. *)
Theorem drone_view_is_static :
  (forall t1 t2 w1 w2,
     charts_in "col2" (page_of t1 w1) = charts_in "col2" (page_of t2 w2)) /\
  (forall w1 w2, charts_in "col2" (page w1) = charts_in "col2" (page w2)) /\
  (forall w, charts_in "col2" (page w) = [drone_figure]) /\
  traces drone_figure = body :: List.map arm_trace arms /\
  List.length (line_segments drone_figure) = 4%nat /\
  Forall (fun arm => let '(x, y, z) := arm in
                     hd_error x = Some 0%Z /\ hd_error y = Some 0%Z /\
                     hd_error z = Some 0%Z) arms.
Proof.
  split; [intros; rewrite !drone_chart_of; reflexivity |].
  split; [intros; rewrite !drone_chart_page; reflexivity |].
  split; [exact drone_chart_page |].
  split; [reflexivity |]. split; [reflexivity |].
  repeat constructor.
Qed.

(** *** Map *)

Lemma map_pins_of t w : map_pins (page_of t w) = [(lat t, lon t)].
Proof.
  rewrite page_of_eq. destruct w. unfold alert, when.
  destruct (Qltb (battery t) (Py.lit 9)); reflexivity.
Qed.

Lemma coordinates_of t w :
  In ("col3", markdown (FString [Text "**Coordinates:** ";
                                 Interp (PFloat (lat t)); Text ", ";
                                 Interp (PFloat (lon t))]) false)
     (page_of t w).
Proof.
  rewrite page_of_eq. apply in_or_app. right. right.
  apply in_or_app. right. apply in_or_app. right. apply in_or_app. left.
  destruct w. cbn. right. right. left. reflexivity.
Qed.

(** C10: the map pin and the coordinate text carry the lat and lon that
    [generate_telemetry] returned, unchanged: the page's only pin is
    (lat, lon) of the sampled reading, and the coordinate text interpolates
    those same two values. *)
Theorem map_shows_sampled_coordinates :
  forall w,
    map_pins (page w) = [(lat (sample w), lon (sample w))] /\
    In ("col3", markdown (FString [Text "**Coordinates:** ";
                                   Interp (PFloat (lat (sample w)));
                                   Text ", ";
                                   Interp (PFloat (lon (sample w)))]) false)
       (page w).
Proof.
  intros w. rewrite page_eq. split.
  - exact (map_pins_of (sample w) (sampled w)).
  - right. right. apply coordinates_of.
Qed.

End Page.

(** ** The trend table *)

Section Trend.

Local Open Scope Q_scope.

(** [size] draws of [normal] read the next [size] entries of numpy's
    stream and leave its cursor [size] further. *)
Lemma normal_spec loc scale n :
  forall e p ne np c,
    Py.normal loc scale n (Build_world e p ne np c) =
    (List.map (fun i => fadd loc (fmul scale (fl (ne (i + np)%nat)))) (seq 0 n),
     Build_world e p ne (n + np) c).
Proof.
  induction n as [| n IH]; intros e p ne np c.
  - reflexivity.
  - cbn [Py.normal]. unfold Py.bind at 1. cbn [Py.standard_normal].
    unfold Py.bind at 1. rewrite IH. unfold Py.ret. f_equal.
    + cbn [seq List.map Nat.add]. f_equal.
      rewrite <- seq_shift, map_map. apply map_ext. intros i.
      replace (S i + np)%nat with (i + S np)%nat by lia. reflexivity.
    + f_equal. lia.
Qed.

Lemma trend_of_eq t w :
  trend_of t w =
  {| Time := Py.date_range_end (clock w) 30;
     Altitude := List.map (fun i => fadd (altitude t) (fmul 5 (noise w i)))
                          (seq 0 30);
     Temperature := List.map (fun i => fadd (temperature t)
                                            (fmul 1 (noise w (30 + i))))
                             (seq 0 30);
     Speed := List.map (fun i => fadd (speed t)
                                      (fmul (Py.lit (15 # 10)) (noise w (60 + i))))
                       (seq 0 30) |}.
Proof.
  destruct w as [e p ne np c].
  unfold trend_of, trend_data, bind, lift, Py.timestamp_now, ret.
  rewrite !normal_spec. cbn [fst snd clock]. unfold noise. cbn [np_entropy np_pos].
  f_equal; apply map_ext; intros i; do 3 f_equal; f_equal; lia.
Qed.

Lemma nth_map_seq {A} (f : nat -> A) n i d :
  (i < n)%nat -> nth i (List.map f (seq 0 n)) d = f i.
Proof.
  intros H.
  rewrite (nth_indep _ d (f 0%nat)) by (rewrite length_map, length_seq; exact H).
  rewrite (map_nth f (seq 0 n) 0%nat i), seq_nth by exact H. reflexivity.
Qed.

Lemma date_range_nth e n i :
  (i < n)%nat ->
  nth i (Py.date_range_end e n) 0%Z
  = (e - (Z.of_nat n - 1 - Z.of_nat i) * Py.second)%Z.
Proof.
  intros H. unfold Py.date_range_end. cbv zeta.
  rewrite nth_map_seq by exact H. lia.
Qed.

Lemma date_range_length e n : List.length (Py.date_range_end e n) = n.
Proof. unfold Py.date_range_end. rewrite length_map. apply length_seq. Qed.

(** C3: the trend table of a reading always has exactly 30 rows; its
    timestamps are one second apart, strictly increasing, and the last one
    is the generation time; and the i-th Altitude, Temperature and Speed
    point is the reading's field plus sigma times a fresh standard normal
    draw, with sigma 5, 1 and 1.5. *)
Theorem trend_table_shape :
  forall t w,
    List.length (Time (trend_of t w)) = 30%nat /\
    List.length (Altitude (trend_of t w)) = 30%nat /\
    List.length (Temperature (trend_of t w)) = 30%nat /\
    List.length (Speed (trend_of t w)) = 30%nat /\
    (forall i, (i < 29)%nat ->
       (nth (S i) (Time (trend_of t w)) 0
        = nth i (Time (trend_of t w)) 0 + Py.second)%Z /\
       (nth i (Time (trend_of t w)) 0 < nth (S i) (Time (trend_of t w)) 0)%Z) /\
    nth 29 (Time (trend_of t w)) 0%Z = clock w /\
    last (Time (trend_of t w)) 0%Z = clock w /\
    Altitude (trend_of t w)
    = List.map (fun i => fadd (altitude t) (fmul 5 (noise w i))) (seq 0 30) /\
    Temperature (trend_of t w)
    = List.map (fun i => fadd (temperature t) (fmul 1 (noise w (30 + i))))
               (seq 0 30) /\
    Speed (trend_of t w)
    = List.map (fun i => fadd (speed t) (fmul (3 # 2) (noise w (60 + i))))
               (seq 0 30).
Proof.
  intros t w. rewrite trend_of_eq. cbn [Time Altitude Temperature Speed].
  assert (L : Py.lit (15 # 10) = 3 # 2) by (vm_compute; reflexivity).
  rewrite L.
  split; [apply date_range_length |].
  split; [rewrite length_map; apply length_seq |].
  split; [rewrite length_map; apply length_seq |].
  split; [rewrite length_map; apply length_seq |].
  split.
  { intros i H. rewrite !date_range_nth by lia. unfold Py.second. lia. }
  split; [rewrite date_range_nth by lia; lia |].
  split; [| repeat split].
  unfold Py.date_range_end. cbn [seq List.map last]. lia.
Qed.

(** C9: trend points are not clamped to the reading's domain.  The
    reading's altitude is always within [100, 250], yet in the run
    [top_world] (altitude 250.0, noise 3.0) the first Altitude point is
    265, and in the run [bottom_world] (altitude 100.0, noise -3.0) it
    is 85. *)
Theorem trend_points_leave_domain :
  (forall w, 100 <= altitude (sample w) <= 250) /\
  nth 0 (Altitude (trend top_world)) 0 == 265 /\
  nth 0 (Altitude (trend bottom_world)) 0 == 85 /\
  (exists w i, (i < 30)%nat /\ 250 < nth i (Altitude (trend w)) 0) /\
  (exists w i, (i < 30)%nat /\ nth i (Altitude (trend w)) 0 < 100).
Proof.
  split; [exact altitude_range |].
  split; [vm_compute; reflexivity |].
  split; [vm_compute; reflexivity |].
  split.
  - exists top_world, 0%nat. split; [lia | vm_compute; reflexivity].
  - exists bottom_world, 0%nat. split; [lia | vm_compute; reflexivity].
Qed.

End Trend.

(** ** Gauges and the alert *)

Section Gauges.

Local Open Scope Q_scope.

Lemma alert_iff_battery w :
  In ("main", battery_alert) (page w) <-> battery (sample w) < 9.
Proof.
  rewrite (alert_written_page w), (alert_written (sample w) (sampled w)).
  rewrite Qltb_lt, nine_exact. reflexivity.
Qed.

(** X1: the alert is raised exactly when the outcome of [random.random()]
    drawn for the battery is below [alert_cutoff] / 2^53 (about 12.07% of
    the outcomes). *)
Theorem alert_iff_draw_below_cutoff :
  forall w,
    In ("main", battery_alert) (page w) <->
    (py_entropy w (1 + py_pos w) mod 2 ^ 53 < alert_cutoff)%Z.
Proof.
  intros w. rewrite alert_iff_battery.
  rewrite sample_eq. cbn [battery]. unfold unit_draw.
  set (k := (py_entropy w (1 + py_pos w) mod 2 ^ 53)%Z).
  assert (W : 0 <= fsub (Py.lit (126 # 10)) (Py.lit (85 # 10)))
    by (apply Qle_bool_imp_le; vm_compute; reflexivity).
  split.
  - intros E. apply Z.nle_gt. intros K.
    assert (B : alert_cutoff # 2 ^ 53 <= k # 2 ^ 53)
      by (unfold Qle; cbn [Qnum Qden]; lia).
    pose proof (round_mono _ _ 2 (uniform_at_mono _ _ _ _ W B)) as M.
    assert (T : 9 <= Py.round (uniform_at (Py.lit (85 # 10)) (Py.lit (126 # 10))
                                  (alert_cutoff # 2 ^ 53)) 2)
      by (apply Qle_bool_imp_le; vm_compute; reflexivity).
    lra.
  - intros K.
    assert (B : k # 2 ^ 53 <= (alert_cutoff - 1)%Z # 2 ^ 53)
      by (unfold Qle, alert_cutoff in *; cbn [Qnum Qden]; lia).
    pose proof (round_mono _ _ 2 (uniform_at_mono _ _ _ _ W B)) as M.
    assert (T : Py.round (uniform_at (Py.lit (85 # 10)) (Py.lit (126 # 10))
                             ((alert_cutoff - 1)%Z # 2 ^ 53)) 2 < 9)
      by (vm_compute; reflexivity).
    lra.
Qed.

Lemma gauge_summary_of t w :
  gauge_summary (page_of t w) =
  [("g1", "Speed (m/s)", PFloat (speed t), Some 50%Z);
   ("g2", "Altitude (m)", PFloat (altitude t), Some 300%Z);
   ("g3", "Battery (V)", PFloat (battery t), Some 13%Z);
   ("g4", "Signal (dBm)", PInt (Z.abs (signal t)), Some 100%Z)].
Proof. unfold gauge_summary. rewrite indicators_page_of. reflexivity. Qed.

Lemma gauge_summary_page w :
  gauge_summary (page w) = gauge_summary (page_of (sample w) (sampled w)).
Proof. unfold gauge_summary. rewrite indicators_page. reflexivity. Qed.

(** X2: a page has exactly four gauges, speed, altitude, battery and
    signal, one per column g1 to g4 with maxima 50, 300, 13 and 100; each
    shows its field of the sampled reading (the signal as its absolute
    value), and for every run each shown value is at least 0 and strictly
    below its gauge's maximum. *)
Theorem every_gauge_fits_its_axis :
  forall w,
    gauge_summary (page w) =
    [("g1", "Speed (m/s)", PFloat (speed (sample w)), Some 50%Z);
     ("g2", "Altitude (m)", PFloat (altitude (sample w)), Some 300%Z);
     ("g3", "Battery (V)", PFloat (battery (sample w)), Some 13%Z);
     ("g4", "Signal (dBm)", PInt (Z.abs (signal (sample w))), Some 100%Z)] /\
    (0 <= speed (sample w) /\ speed (sample w) < 50) /\
    (0 <= altitude (sample w) /\ altitude (sample w) < 300) /\
    (0 <= battery (sample w) /\ battery (sample w) < 13) /\
    (0 <= Z.abs (signal (sample w)) < 100)%Z.
Proof.
  intros w. split.
  - rewrite gauge_summary_page. apply gauge_summary_of.
  - pose proof (speed_range w) as [S1 S2].
    pose proof (altitude_range w) as [A1 A2].
    pose proof (battery_range w) as [B1 B2].
    pose proof (signal_range w) as G.
    assert (L1 : 0 <= Py.lit (85 # 10)) by (apply Qle_bool_imp_le; vm_compute; reflexivity).
    assert (L2 : Py.lit (126 # 10) < 13) by (vm_compute; reflexivity).
    repeat split; try lra; lia.
Qed.

(** X3: the alert and the battery gauge read the same sample: whatever
    value the battery gauge of a run shows, the alert is on that page
    exactly when this value is below 9.0. *)
Theorem alert_agrees_with_battery_gauge :
  forall w b,
    In ("g3", "Battery (V)", PFloat b, Some 13%Z) (gauge_summary (page w)) ->
    (In ("main", battery_alert) (page w) <-> b < 9).
Proof.
  intros w b H.
  rewrite gauge_summary_page, gauge_summary_of in H. cbn [In] in H.
  destruct H as [H | [H | [H | [H | []]]]]; try discriminate H.
  injection H as <-. apply alert_iff_battery.
Qed.

Lemma alert_agrees_with_battery_gauge_witness :
  In ("g3", "Battery (V)", PFloat (17 # 2), Some 13%Z)
     (gauge_summary (page bottom_world)) /\
  (In ("main", battery_alert) (page bottom_world) <-> 17 # 2 < 9).
Proof.
  assert (H : In ("g3", "Battery (V)", PFloat (17 # 2), Some 13%Z)
                 (gauge_summary (page bottom_world)))
    by (vm_compute; right; right; left; reflexivity).
  split; [exact H | exact (alert_agrees_with_battery_gauge bottom_world (17 # 2) H)].
Defined.

End Gauges.

(** ** Readouts, trend chart and layout *)

Section Layout.

Local Open Scope Q_scope.

Lemma metrics_of t w :
  metrics (page_of t w) =
  [("t1", "Roll", Val (PFloat (roll t)));
   ("t2", "Pitch", Val (PFloat (pitch t)));
   ("t3", "Yaw", Val (PFloat (yaw t)));
   ("t4", "Temperature",
    FString [Interp (PFloat (temperature t)); Text (degree_sign ++ "C")]);
   ("t1", "Pressure", FString [Interp (PFloat (pressure t)); Text " hPa"]);
   ("t2", "Flight Mode", Val (PStr (mode t)))].
Proof.
  rewrite page_of_eq. destruct w. unfold alert, when.
  destruct (Qltb (battery t) (Py.lit 9)); reflexivity.
Qed.

(** X4: a page has exactly six metric readouts, Roll, Pitch, Yaw,
    Temperature, Pressure and Flight Mode, in the columns t1, t2, t3, t4, t1,
    t2; each carries its field of the sampled reading unchanged, the
    temperature followed by the degree sign and C, the pressure by hPa. *)
Theorem six_readouts_show_the_reading :
  forall w,
    metrics (page w) =
    [("t1", "Roll", Val (PFloat (roll (sample w))));
     ("t2", "Pitch", Val (PFloat (pitch (sample w))));
     ("t3", "Yaw", Val (PFloat (yaw (sample w))));
     ("t4", "Temperature",
      FString [Interp (PFloat (temperature (sample w)));
               Text (degree_sign ++ "C")]);
     ("t1", "Pressure",
      FString [Interp (PFloat (pressure (sample w))); Text " hPa"]);
     ("t2", "Flight Mode", Val (PStr (mode (sample w))))].
Proof.
  intros w. rewrite page_eq. exact (metrics_of (sample w) (sampled w)).
Qed.

Lemma trends_written t w :
  snd (trends t w) =
  [("main", markdown (Val (PStr "### Live Telemetry Trends")) false);
   ("main", plotly_chart (trend_figure (trend_of t w)) true)].
Proof. destruct w. reflexivity. Qed.

Lemma main_charts_of t w :
  charts_in "main" (page_of t w) = [trend_figure (trend_of t w)].
Proof.
  rewrite page_of_eq, trends_written. destruct w. unfold alert, when.
  destruct (Qltb (battery t) (Py.lit 9)); reflexivity.
Qed.

Lemma trend_lengths t w :
  List.length (Time (trend_of t w)) = 30%nat /\
  List.length (Altitude (trend_of t w)) = 30%nat /\
  List.length (Temperature (trend_of t w)) = 30%nat /\
  List.length (Speed (trend_of t w)) = 30%nat.
Proof.
  rewrite trend_of_eq. cbn [Time Altitude Temperature Speed].
  rewrite date_range_length, !length_map, !length_seq. repeat split.
Qed.

(** X5: the trend chart is the last thing a run writes; it has exactly three
    line traces, named Altitude, Temp and Speed, that share one time axis,
    and in each of them there are as many values as timestamps, 30. *)
Theorem trend_chart_is_well_formed :
  forall w,
    last (page w) ("main", button "") =
      ("main", plotly_chart (trend_figure (trend w)) true) /\
    charts_in "main" (page w) = [trend_figure (trend w)] /\
    traces (trend_figure (trend w)) =
      [Scatter (Time (trend w)) (Altitude (trend w)) "Altitude" (Line "cyan" None);
       Scatter (Time (trend w)) (Temperature (trend w)) "Temp" (Line "magenta" None);
       Scatter (Time (trend w)) (Speed (trend w)) "Speed" (Line "lime" None)] /\
    Forall (fun tr => match tr with
                      | Scatter x y _ _ =>
                          List.length x = 30%nat /\ List.length y = 30%nat
                      | _ => False
                      end) (traces (trend_figure (trend w))).
Proof.
  intros w. unfold trend.
  pose proof (trend_lengths (sample w) (sampled w)) as (L1 & L2 & L3 & L4).
  split; [| split; [| split]].
  - rewrite page_eq, page_of_eq, trends_written.
    generalize (trend_figure (trend_of (sample w) (sampled w))). intros fig.
    generalize (sample w). intros t. destruct (sampled w).
    unfold alert, when. destruct (Qltb (battery t) (Py.lit 9)); reflexivity.
  - rewrite page_eq. exact (main_charts_of (sample w) (sampled w)).
  - reflexivity.
  - cbn [trend_figure traces Figure add_trace update_layout app].
    repeat constructor; assumption.
Qed.

End Layout.

(** ** What a run writes and what it draws *)

Section Run.

Local Open Scope Q_scope.

Lemma page_split t w :
  filter is_error (page_of t w)
  = (if Qltb (battery t) (Py.lit 9) then [("main", battery_alert)] else []) /\
  layout_of (filter (fun cw => negb (is_error cw)) (page_of t w))
  = skipn 2 fixed_layout /\
  (In ("main", battery_alert) (page_of t w) ->
   hd_error (page_of t w) = Some ("main", battery_alert)).
Proof.
  rewrite page_of_eq, trends_written.
  generalize (trend_figure (trend_of t w)). intros fig. destruct w.
  unfold alert, when. destruct (Qltb (battery t) (Py.lit 9)).
  - repeat split; reflexivity.
  - split; [reflexivity | split; [reflexivity |]].
    cbn. intros H.
    repeat (destruct H as [H | H]; [discriminate H |]). destruct H.
Qed.

(** X6: the alert is the only widget whose presence depends on the draw.
    Every run writes the same thirty calls to the same containers in the
    same order; the only [st.error] a page can hold is the battery alert, at
    most once, and when it is there it is the third widget, right after the
    two page-setup calls and before any column. *)
Theorem alert_is_the_only_conditional_widget :
  forall w,
    layout_of (filter (fun cw => negb (is_error cw)) (page w)) = fixed_layout /\
    List.length fixed_layout = 30%nat /\
    filter is_error (page w)
    = (if Qltb (battery (sample w)) 9 then [("main", battery_alert)] else []) /\
    (In ("main", battery_alert) (page w) ->
     nth_error (page w) 2 = Some ("main", battery_alert)).
Proof.
  intros w.
  destruct (page_split (sample w) (sampled w)) as (E & L & P).
  split; [| split; [reflexivity | split]].
  - rewrite page_eq. cbn [filter is_error snd negb layout_of List.map fst kind].
    fold (layout_of (filter (fun cw => negb (is_error cw))
                            (page_of (sample w) (sampled w)))).
    rewrite L. reflexivity.
  - rewrite page_eq. cbn [filter is_error snd]. rewrite E.
    assert (Q : Qltb (battery (sample w)) (Py.lit 9) = Qltb (battery (sample w)) 9)
      by (f_equal; vm_compute; reflexivity).
    rewrite Q. reflexivity.
  - intros H. apply (proj1 (alert_written_page w)) in H.
    rewrite page_eq. cbn [nth_error].
    destruct (page_of (sample w) (sampled w)) as [| x l];
      [destruct H | exact (P H)].
Qed.

(** X12: [st.set_page_config] is the first call of every run and is made
    exactly once; the style sheet follows it, as raw HTML. *)
Theorem page_config_comes_first :
  forall w,
    nth_error (page w) 0
    = Some ("main", set_page_config "Neon Drone Dashboard" "wide") /\
    nth_error (page w) 1 = Some ("main", markdown (Val (PStr neon_css)) true) /\
    count_occ string_dec (List.map snd (layout_of (page w))) "set_page_config"
    = 1%nat.
Proof.
  intros w.
  destruct (page_split (sample w) (sampled w)) as (E & L & _).
  rewrite page_eq. split; [reflexivity | split; [reflexivity |]].
  cbn [layout_of List.map fst snd kind].
  fold (layout_of (page_of (sample w) (sampled w))).
  rewrite count_occ_cons_eq by reflexivity.
  rewrite count_occ_cons_neq by discriminate.
  f_equal. apply count_occ_not_In. intros H.
  apply in_map_iff in H. destruct H as ([c k] & K & H). cbn in K. subst k.
  apply in_map_iff in H. destruct H as ([c' wd] & K & H).
  injection K as -> K.
  assert (F : In (c, kind wd)
                 (layout_of (filter (fun cw => negb (is_error cw))
                                    (page_of (sample w) (sampled w))))).
  { apply in_map_iff. exists (c, wd). split; [reflexivity |].
    apply filter_In. split; [exact H |].
    destruct wd; try reflexivity; discriminate K. }
  rewrite L, K in F. cbn in F.
  repeat (destruct F as [F | F]; [discriminate F |]). destruct F.
Qed.

Lemma main_eq w : fst (main w) = fst (render (sample w) (sampled w)).
Proof.
  unfold main, bind. cbn [st]. rewrite generate_telemetry_eq.
  destruct (render (sample w) (sampled w)) as [[u w'] out]. reflexivity.
Qed.

Lemma render_world t w :
  snd (fst (render t w)) =
  {| py_entropy := py_entropy w; py_pos := py_pos w;
     np_entropy := np_entropy w; np_pos := 90 + np_pos w; clock := clock w |}.
Proof.
  destruct w. unfold render, alert, when.
  destruct (Qltb (battery t) (Py.lit 9)); reflexivity.
Qed.

(** X7: a run draws exactly twelve outcomes from the [random] module, all
    of them for the reading, and exactly ninety standard normal draws from
    numpy, all of them for the trend table (thirty per series, Altitude
    first, then Temperature, then Speed); it changes neither stream nor the
    clock. *)
Theorem run_draws_12_and_90 :
  forall w,
    sampled w =
    {| py_entropy := py_entropy w; py_pos := 12 + py_pos w;
       np_entropy := np_entropy w; np_pos := np_pos w; clock := clock w |} /\
    final w =
    {| py_entropy := py_entropy w; py_pos := 12 + py_pos w;
       np_entropy := np_entropy w; np_pos := 90 + np_pos w; clock := clock w |} /\
    Altitude (trend w)
    = List.map (fun i => fadd (altitude (sample w)) (fmul 5 (fl (np_entropy w (i + np_pos w)))))
               (seq 0 30) /\
    Temperature (trend w)
    = List.map (fun i => fadd (temperature (sample w))
                              (fmul 1 (fl (np_entropy w (30 + i + np_pos w)))))
               (seq 0 30) /\
    Speed (trend w)
    = List.map (fun i => fadd (speed (sample w))
                              (fmul (Py.lit (15 # 10)) (fl (np_entropy w (60 + i + np_pos w)))))
               (seq 0 30).
Proof.
  intros w. split; [apply sampled_eq |]. split.
  - unfold final. rewrite main_eq, render_world, sampled_eq. reflexivity.
  - unfold trend. rewrite trend_of_eq, sampled_eq.
    cbn [Altitude Temperature Speed]. unfold noise. cbn [np_entropy np_pos].
    repeat split.
Qed.

(** X8: the reading depends on nothing but the twelve outcomes of [random]
    it consumes: two runs that agree on them sample the same reading,
    whatever numpy's stream, the clock and the later outcomes are. *)
Theorem reading_depends_on_twelve_outcomes :
  forall w1 w2,
    (forall i, (i < 12)%nat ->
               py_entropy w1 (i + py_pos w1) = py_entropy w2 (i + py_pos w2)) ->
    sample w1 = sample w2.
Proof.
  intros w1 w2 H.
  assert (E : forall i, (i < 12)%nat -> unit_draw w1 i = unit_draw w2 i).
  { intros i Hi. unfold unit_draw. rewrite (H i Hi). reflexivity. }
  rewrite !sample_eq.
  rewrite (E 1%nat), (E 3%nat), (E 4%nat), (E 5%nat), (E 6%nat), (E 7%nat),
    (E 8%nat), (E 9%nat), (E 10%nat), (E 11%nat) by lia.
  rewrite (H 2%nat) by lia.
  change (py_entropy w1 (py_pos w1)) with (py_entropy w1 (0 + py_pos w1)).
  rewrite (H 0%nat) by lia. reflexivity.
Qed.

Lemma reading_depends_on_twelve_outcomes_witness :
  sample top_world = sample late_world.
Proof.
  apply (reading_depends_on_twelve_outcomes top_world late_world).
  intros i H.
  do 12 (destruct i as [| i]; [reflexivity |]). exfalso. lia.
Defined.

End Run.

(** ** Decimals and noise *)

Section Decimals.

Local Open Scope Q_scope.

Lemma round_uniform_on_grid lo hi a b d :
  digits_ok lo hi a b d = true ->
  forall w i, on_grid d lo hi (Py.round (uniform_at a b (unit_draw w i)) d).
Proof.
  unfold digits_ok. rewrite !andb_true_iff, Qle_bool_iff, !Z.leb_le.
  intros [[W L] U] w i.
  destruct (unit_draw_range w i) as [D0 D1].
  pose proof (pow10_pos d) as P.
  exists (rhe (uniform_at a b (unit_draw w i) * Py.pow10 d)).
  split; [| reflexivity]. split.
  - eapply Z.le_trans; [exact L |]. apply Binary64Facts.rhe_mono.
    apply Qmult_le_compat_r; [| lra].
    exact (uniform_at_mono a b _ _ W D0).
  - eapply Z.le_trans; [| exact U]. apply Binary64Facts.rhe_mono.
    apply Qmult_le_compat_r; [| lra].
    exact (uniform_at_mono a b _ _ W D1).
Qed.

Ltac sampled_grid :=
  rewrite sample_eq; cbn [battery altitude temperature pressure roll pitch yaw
                          lat lon speed];
  apply round_uniform_on_grid; vm_compute; reflexivity.

(** X9: every float field of a sampled reading is the float nearest to a
    decimal with two digits after the point (six for lat and lon) that lies
    in the field's exact decimal range: battery is n/100 with
    850 <= n <= 1260, yaw is n/100 with 0 <= n <= 36000, lat is n/10^6 with
    29130000 <= n <= 29140000, and so on. *)
Theorem sampled_fields_are_decimals :
  forall w,
    on_grid 2 850 1260 (battery (sample w)) /\
    on_grid 2 10000 25000 (altitude (sample w)) /\
    on_grid 2 1800 3000 (temperature (sample w)) /\
    on_grid 2 96000 102500 (pressure (sample w)) /\
    on_grid 2 (-1000) 1000 (roll (sample w)) /\
    on_grid 2 (-3000) 3000 (pitch (sample w)) /\
    on_grid 2 0 36000 (yaw (sample w)) /\
    on_grid 6 29130000 29140000 (lat (sample w)) /\
    on_grid 6 77220000 77230000 (lon (sample w)) /\
    on_grid 2 500 2500 (speed (sample w)).
Proof.
  intros w. repeat split; sampled_grid.
Qed.

(** A trend point moves with its centre and with its noise. *)
Lemma normal_point_between lo hi s B loc z :
  lo <= loc <= hi -> 0 <= s -> - B <= z <= B ->
  fl (lo + fl (s * - B)) <= fadd loc (fmul s z) <= fl (hi + fl (s * B)).
Proof.
  intros [L U] S [Z1 Z2]. unfold fadd, fmul.
  assert (M1 : fl (s * - B) <= fl (s * z)).
  { apply Binary64Facts.fl_mono. rewrite !(Qmult_comm s).
    apply Qmult_le_compat_r; assumption. }
  assert (M2 : fl (s * z) <= fl (s * B)).
  { apply Binary64Facts.fl_mono. rewrite !(Qmult_comm s).
    apply Qmult_le_compat_r; assumption. }
  split; apply Binary64Facts.fl_mono; lra.
Qed.

(** X10: the trend strays from the reading only as far as the noise does.
    In a run whose ninety standard normal draws all lie within [-3, 3],
    every Altitude point is within [85, 265], every Temperature point within
    [15, 33] and every Speed point within [0.5, 29.5]. *)
Theorem trend_within_three_sigma :
  forall w,
    (forall j, (j < 90)%nat -> -3 <= noise (sampled w) j <= 3) ->
    forall i, (i < 30)%nat ->
      (85 <= nth i (Altitude (trend w)) 0 <= 265) /\
      (15 <= nth i (Temperature (trend w)) 0 <= 33) /\
      ((1 # 2) <= nth i (Speed (trend w)) 0 <= (59 # 2)).
Proof.
  intros w N i Hi. unfold trend. rewrite trend_of_eq.
  cbn [Altitude Temperature Speed]. rewrite !nth_map_seq by exact Hi.
  pose proof (N i ltac:(lia)) as Z1.
  pose proof (N (30 + i)%nat ltac:(lia)) as Z2.
  pose proof (N (60 + i)%nat ltac:(lia)) as Z3.
  assert (L : Py.lit (15 # 10) = 3 # 2) by (vm_compute; reflexivity).
  rewrite L.
  pose proof (normal_point_between 100 250 5 3 _ _ (altitude_range w)
                ltac:(lra) Z1) as [A1 A2].
  pose proof (normal_point_between 18 30 1 3 _ _ (temperature_range w)
                ltac:(lra) Z2) as [T1 T2].
  pose proof (normal_point_between 5 25 (3 # 2) 3 _ _ (speed_range w)
                ltac:(lra) Z3) as [S1 S2].
  assert (EA1 : fl (100 + fl (5 * - 3)) == 85) by (vm_compute; reflexivity).
  assert (EA2 : fl (250 + fl (5 * 3)) == 265) by (vm_compute; reflexivity).
  assert (ET1 : fl (18 + fl (1 * - 3)) == 15) by (vm_compute; reflexivity).
  assert (ET2 : fl (30 + fl (1 * 3)) == 33) by (vm_compute; reflexivity).
  assert (ES1 : fl (5 + fl ((3 # 2) * - 3)) == 1 # 2) by (vm_compute; reflexivity).
  assert (ES2 : fl (25 + fl ((3 # 2) * 3)) == 59 # 2) by (vm_compute; reflexivity).
  rewrite EA1 in A1. rewrite EA2 in A2. rewrite ET1 in T1. rewrite ET2 in T2.
  rewrite ES1 in S1. rewrite ES2 in S2.
  repeat split; assumption.
Qed.

Lemma trend_within_three_sigma_witness :
  (85 <= nth 0 (Altitude (trend top_world)) 0 <= 265) /\
  (15 <= nth 0 (Temperature (trend top_world)) 0 <= 33) /\
  ((1 # 2) <= nth 0 (Speed (trend top_world)) 0 <= (59 # 2)).
Proof.
  apply (trend_within_three_sigma top_world).
  - intros j _. vm_compute. split; discriminate.
  - lia.
Defined.

End Decimals.
